(** * ros_alarms: the [AlarmProxy] value type and its wire conversion

    Shallow embedding of [ros_alarms/include/alarm_proxy.hpp].

    The header declares one struct, [AlarmProxy], with six public data
    members, three constructors and the member function [as_msg].  Each
    body is a straight line of assignments, so a body is embedded as the
    list of its statements, every statement being an update of the frame
    it runs in (the object under construction together with the
    constructor's parameters, or the receiver together with the local
    message).  Name lookup is resolved the way C++ resolves it: inside a
    constructor a parameter hides the data member of the same name.

    No constructor initialises [raised] or [severity] before its body
    runs, so what these two members hold on entry is what the storage of
    the object holds; every constructor therefore takes that [storage] as
    an argument. *)

From Stdlib Require Import ZArith String Ascii List Bool.
Import ListNotations.

Local Open Scope string_scope.
Local Open Scope Z_scope.

(** ** C++ scalars *)

(** [uint8_t]: an 8-bit unsigned integer, carried as a [Z] in [0, 256). *)
Definition uint8_t : Type := Z.

Definition uint8_range (z : uint8_t) : bool := (0 <=? z) && (z <? 256).

(** The storage of a [bool] or [uint8_t] object: [Holds v] once a value
    has been written to it, [Indeterminate] as long as none has.  The
    bodies below are given cell by cell: a statement [x = y] leaves in [x]
    the cell of [y].  Whether a call that reads a never-written [bool] has
    defined behaviour is said apart, by [outcome]. *)
Inductive scalar (A : Type) : Type :=
| Indeterminate : scalar A
| Holds (a : A) : scalar A.

Arguments Indeterminate {A}.
Arguments Holds {A} a.

Definition is_determinate {A : Type} (c : scalar A) : bool :=
  match c with
  | Indeterminate => false
  | Holds _ => true
  end.

(** What the storage of an [AlarmProxy] object holds, when a constructor
    is entered, in the places of its two scalar members. *)
Record storage : Type := mkStorage {
  stored_raised : scalar bool;
  stored_severity : scalar uint8_t
}.

(** Storage that nothing has written: an automatic or dynamic object, a
    temporary. *)
Definition fresh_storage : storage := mkStorage Indeterminate Indeterminate.

(** Storage of static duration, zero-initialised before any constructor
    runs. *)
Definition zeroed_storage : storage := mkStorage (Holds false) (Holds 0).

(** The result of a call: it completes with a value, or it has undefined
    behaviour. *)
Inductive outcome (A : Type) : Type :=
| Completes (a : A) : outcome A
| UndefinedBehaviour : outcome A.

Arguments Completes {A} a.
Arguments UndefinedBehaviour {A}.

(** ** Straight-line bodies *)

Definition stmt (S : Type) : Type := S -> S.

Definition exec {S : Type} (body : list (stmt S)) (s : S) : S :=
  fold_left (fun st c => c st) body s.

(** ** The wire message *)

Module ros_alarms.

(** Modelled from the spec: the message struct [ros_alarms::Alarm] comes
    from the generated header [ros_alarms/Alarm.h], which is not part of
    the sources; its six fields, their order and their types are those of
    the wire message shape (alarm_name, raised, node_name,
    problem_description, parameters, severity). *)
Record Alarm : Type := mkAlarm {
  alarm_name : string;
  raised : scalar bool;
  node_name : string;
  problem_description : string;
  parameters : string;
  severity : scalar uint8_t
}.

Definition set_alarm_name (v : string) (a : Alarm) : Alarm :=
  mkAlarm v (raised a) (node_name a) (problem_description a)
          (parameters a) (severity a).

Definition set_raised (v : scalar bool) (a : Alarm) : Alarm :=
  mkAlarm (alarm_name a) v (node_name a) (problem_description a)
          (parameters a) (severity a).

Definition set_node_name (v : string) (a : Alarm) : Alarm :=
  mkAlarm (alarm_name a) (raised a) v (problem_description a)
          (parameters a) (severity a).

Definition set_problem_description (v : string) (a : Alarm) : Alarm :=
  mkAlarm (alarm_name a) (raised a) (node_name a) v
          (parameters a) (severity a).

Definition set_parameters (v : string) (a : Alarm) : Alarm :=
  mkAlarm (alarm_name a) (raised a) (node_name a) (problem_description a)
          v (severity a).

Definition set_severity (v : scalar uint8_t) (a : Alarm) : Alarm :=
  mkAlarm (alarm_name a) (raised a) (node_name a) (problem_description a)
          (parameters a) v.

End ros_alarms.

(** ** The struct *)

(** The data members, in declaration order. *)
Record AlarmProxy : Type := mkAlarmProxy {
  alarm_name : string;
  raised : scalar bool;
  node_name : string;
  problem_description : string;
  json_parameters : string;
  severity : scalar uint8_t
}.

Definition set_alarm_name (v : string) (p : AlarmProxy) : AlarmProxy :=
  mkAlarmProxy v (raised p) (node_name p) (problem_description p)
               (json_parameters p) (severity p).

Definition set_raised (v : scalar bool) (p : AlarmProxy) : AlarmProxy :=
  mkAlarmProxy (alarm_name p) v (node_name p) (problem_description p)
               (json_parameters p) (severity p).

Definition set_node_name (v : string) (p : AlarmProxy) : AlarmProxy :=
  mkAlarmProxy (alarm_name p) (raised p) v (problem_description p)
               (json_parameters p) (severity p).

Definition set_problem_description (v : string) (p : AlarmProxy)
  : AlarmProxy :=
  mkAlarmProxy (alarm_name p) (raised p) (node_name p) v
               (json_parameters p) (severity p).

Definition set_json_parameters (v : string) (p : AlarmProxy) : AlarmProxy :=
  mkAlarmProxy (alarm_name p) (raised p) (node_name p)
               (problem_description p) v (severity p).

Definition set_severity (v : scalar uint8_t) (p : AlarmProxy) : AlarmProxy :=
  mkAlarmProxy (alarm_name p) (raised p) (node_name p)
               (problem_description p) (json_parameters p) v.

(** No constructor has a mem-initializer list, so on entry to a
    constructor body every member is default-initialised: the four
    [std::string] members are empty, and nothing is done to [raised] and
    [severity], which are what the storage [s] of the object holds. *)
Definition members_default_init (s : storage) : AlarmProxy :=
  mkAlarmProxy "" (stored_raised s) "" "" "" (stored_severity s).

(** ** Constructor, full form (header lines 10-23) *)

(** The frame of the six-parameter constructor: the object under
    construction and the six by-value parameters.  The parameters carry
    the names of the data members, so inside the body each unqualified
    name denotes the parameter. *)
Record full_frame : Type := mkFullFrame {
  full_this : AlarmProxy;
  arg_alarm_name : string;
  arg_raised : bool;
  arg_node_name : string;
  arg_problem_description : string;
  arg_json_parameters : string;
  arg_severity : uint8_t
}.

Definition set_arg_alarm_name (v : string) (f : full_frame) : full_frame :=
  mkFullFrame (full_this f) v (arg_raised f) (arg_node_name f)
              (arg_problem_description f) (arg_json_parameters f)
              (arg_severity f).

Definition set_arg_raised (v : bool) (f : full_frame) : full_frame :=
  mkFullFrame (full_this f) (arg_alarm_name f) v (arg_node_name f)
              (arg_problem_description f) (arg_json_parameters f)
              (arg_severity f).

Definition set_arg_node_name (v : string) (f : full_frame) : full_frame :=
  mkFullFrame (full_this f) (arg_alarm_name f) (arg_raised f) v
              (arg_problem_description f) (arg_json_parameters f)
              (arg_severity f).

Definition set_arg_problem_description (v : string) (f : full_frame)
  : full_frame :=
  mkFullFrame (full_this f) (arg_alarm_name f) (arg_raised f)
              (arg_node_name f) v (arg_json_parameters f) (arg_severity f).

Definition set_arg_json_parameters (v : string) (f : full_frame)
  : full_frame :=
  mkFullFrame (full_this f) (arg_alarm_name f) (arg_raised f)
              (arg_node_name f) (arg_problem_description f) v
              (arg_severity f).

Definition set_arg_severity (v : uint8_t) (f : full_frame) : full_frame :=
  mkFullFrame (full_this f) (arg_alarm_name f) (arg_raised f)
              (arg_node_name f) (arg_problem_description f)
              (arg_json_parameters f) v.

Definition AlarmProxy_full_body : list (stmt full_frame) :=
  [ (* alarm_name = alarm_name; *)
    (fun f => set_arg_alarm_name (arg_alarm_name f) f);
    (* raised = raised; *)
    (fun f => set_arg_raised (arg_raised f) f);
    (* node_name = node_name; *)
    (fun f => set_arg_node_name (arg_node_name f) f);
    (* problem_description = problem_description; *)
    (fun f => set_arg_problem_description (arg_problem_description f) f);
    (* json_parameters = json_parameters; *)
    (fun f => set_arg_json_parameters (arg_json_parameters f) f);
    (* severity = severity; *)
    (fun f => set_arg_severity (arg_severity f) f) ].

Definition AlarmProxy_full
    (s : storage)
    (alarm_name : string) (raised : bool) (node_name : string)
    (problem_description : string) (json_parameters : string)
    (severity : uint8_t) : AlarmProxy :=
  full_this
    (exec AlarmProxy_full_body
          (mkFullFrame (members_default_init s) alarm_name raised node_name
                       problem_description json_parameters severity)).

(** ** Implicitly declared copy assignment *)

(** [lhs = rhs] on two [AlarmProxy] objects: member-wise assignment in
    declaration order. *)
Definition copy_assign (lhs rhs : AlarmProxy) : AlarmProxy :=
  exec [ set_alarm_name (alarm_name rhs);
         set_raised (raised rhs);
         set_node_name (node_name rhs);
         set_problem_description (problem_description rhs);
         set_json_parameters (json_parameters rhs);
         set_severity (severity rhs) ] lhs.

(** The call [lhs = rhs].  The member-wise copy converts [rhs.raised] to a
    value; for a [bool] that was never written the conversion is
    undefined.  ([severity] is an [unsigned char], whose never-written
    cell may be copied.) *)
Definition assign (lhs rhs : AlarmProxy) : outcome AlarmProxy :=
  if is_determinate (raised rhs)
  then Completes (copy_assign lhs rhs)
  else UndefinedBehaviour.

(** ** Constructor from a wire message (header lines 35-43) *)

(** The parameter is called [msg]; no member is hidden, so every left-hand
    side is a data member of the object under construction. *)
Definition AlarmProxy_from_msg_body (msg : ros_alarms.Alarm)
  : list (stmt AlarmProxy) :=
  [ (* alarm_name = msg.alarm_name; *)
    set_alarm_name (ros_alarms.alarm_name msg);
    (* raised = msg.raised; *)
    set_raised (ros_alarms.raised msg);
    (* node_name = msg.node_name; *)
    set_node_name (ros_alarms.node_name msg);
    (* problem_description = msg.problem_description; *)
    set_problem_description (ros_alarms.problem_description msg);
    (* json_parameters = msg.parameters; *)
    set_json_parameters (ros_alarms.parameters msg);
    (* severity = msg.severity; *)
    set_severity (ros_alarms.severity msg) ].

Definition AlarmProxy_from_msg (s : storage) (msg : ros_alarms.Alarm)
  : AlarmProxy :=
  exec (AlarmProxy_from_msg_body msg) (members_default_init s).

(** ** Observations on an instance *)

Inductive field : Type :=
| F_alarm_name
| F_raised
| F_node_name
| F_problem_description
| F_json_parameters
| F_severity.

Inductive field_value : Type :=
| V_string (s : string)
| V_bool (b : scalar bool)
| V_uint8 (z : scalar uint8_t).

Definition read_field (f : field) (p : AlarmProxy) : field_value :=
  match f with
  | F_alarm_name => V_string (alarm_name p)
  | F_raised => V_bool (raised p)
  | F_node_name => V_string (node_name p)
  | F_problem_description => V_string (problem_description p)
  | F_json_parameters => V_string (json_parameters p)
  | F_severity => V_uint8 (severity p)
  end.

Section Collaborators.

(** The state of a message object right after the declaration
    [ros_alarms::Alarm a;], set by the generated default constructor. *)
Variable Alarm_default : ros_alarms.Alarm.

(** [ros::this_node::getName()], the process-identity provider. *)
Variable this_node_getName : unit -> string.

(** ** Constructor, implicit reporter (header lines 25-33) *)

(** Five parameters; the body builds a temporary with the full form,
    passing [ros::this_node::getName()] as [node_name], and copy-assigns
    it to [*this].  [this0] is the storage of the object under
    construction, [tmp0] the storage of the temporary. *)
Definition AlarmProxy_implicit
    (this0 tmp0 : storage)
    (alarm_name : string) (raised : bool)
    (problem_description : string) (json_parameters : string)
    (severity : uint8_t) : outcome AlarmProxy :=
  let this := members_default_init this0 in
  assign this
    (AlarmProxy_full tmp0 alarm_name raised (this_node_getName tt)
                     problem_description json_parameters severity).

(** ** [as_msg] (header lines 45-55) *)

(** The frame of [as_msg]: the receiver and the local message [a].  The
    member function is not declared [const], so the receiver is threaded
    through the body and handed back next to the returned message. *)
Definition as_msg_frame : Type := (AlarmProxy * ros_alarms.Alarm)%type.

Definition as_msg_body : list (stmt as_msg_frame) :=
  [ (* a.alarm_name = alarm_name; *)
    (fun '(this, a) => (this, ros_alarms.set_alarm_name (alarm_name this) a));
    (* a.raised = raised; *)
    (fun '(this, a) => (this, ros_alarms.set_raised (raised this) a));
    (* a.node_name = node_name; *)
    (fun '(this, a) => (this, ros_alarms.set_node_name (node_name this) a));
    (* a.problem_description = problem_description; *)
    (fun '(this, a) =>
       (this,
        ros_alarms.set_problem_description (problem_description this) a));
    (* a.parameters = json_parameters; *)
    (fun '(this, a) =>
       (this, ros_alarms.set_parameters (json_parameters this) a));
    (* a.severity = severity; *)
    (fun '(this, a) => (this, ros_alarms.set_severity (severity this) a)) ].

(** Returns the message and the receiver as the call leaves it. *)
Definition as_msg (this : AlarmProxy) : ros_alarms.Alarm * AlarmProxy :=
  let '(this', a) := exec as_msg_body (this, Alarm_default) in
  (a, this').

(** The two directions of the conversion. *)
Definition to_wire (e : AlarmProxy) : ros_alarms.Alarm := fst (as_msg e).

Definition from_wire (s : storage) (m : ros_alarms.Alarm) : AlarmProxy :=
  AlarmProxy_from_msg s m.

(** ** Operations on a constructed instance *)

(** What the struct offers on an existing object: the member function
    [as_msg] and reads of the data members. *)
Inductive operation : Type :=
| Op_as_msg
| Op_read (f : field).

Definition apply_operation (p : AlarmProxy) (o : operation) : AlarmProxy :=
  match o with
  | Op_as_msg => snd (as_msg p)
  | Op_read _ => p
  end.

Definition run_operations (ops : list operation) (p : AlarmProxy)
  : AlarmProxy :=
  fold_left apply_operation ops p.

(** ** Everything a holder of an instance can do with it *)

(** Besides the member operations, the struct leaves its objects open to
    assignment ([e = rhs;], the implicitly declared copy assignment) and
    to assignment to each of its six data members, which are public and
    not [const] ([e.alarm_name = v;] and so on). *)
Inductive access : Type :=
| Acc_operation (o : operation)
| Acc_assign (rhs : AlarmProxy)
| Acc_store_alarm_name (v : string)
| Acc_store_raised (v : bool)
| Acc_store_node_name (v : string)
| Acc_store_problem_description (v : string)
| Acc_store_json_parameters (v : string)
| Acc_store_severity (v : uint8_t).

Definition apply_access (p : AlarmProxy) (a : access) : AlarmProxy :=
  match a with
  | Acc_operation o => apply_operation p o
  | Acc_assign rhs => copy_assign p rhs
  | Acc_store_alarm_name v => set_alarm_name v p
  | Acc_store_raised v => set_raised (Holds v) p
  | Acc_store_node_name v => set_node_name v p
  | Acc_store_problem_description v => set_problem_description v p
  | Acc_store_json_parameters v => set_json_parameters v p
  | Acc_store_severity v => set_severity (Holds v) p
  end.

Definition run_accesses (accs : list access) (p : AlarmProxy) : AlarmProxy :=
  fold_left apply_access accs p.

(** The accesses that go through what the struct declares: an [as_msg]
    call or the read of a member. *)
Definition is_member_operation (a : access) : bool :=
  match a with
  | Acc_operation _ => true
  | _ => false
  end.

End Collaborators.

(** ** Concrete data used in the examples *)

(** The double-quote character, code 34. *)
Definition dquote : string := String (ascii_of_nat 34) EmptyString.

(** The text [{"cell":3,"volts":2.9}]. *)
Definition battery_parameters : string :=
  "{" ++ dquote ++ "cell" ++ dquote ++ ":3," ++ dquote ++ "volts" ++ dquote
      ++ ":2.9}".

(** A two-byte UTF-8 sequence (bytes 206 and 169). *)
Definition non_ascii_name : string :=
  String (ascii_of_nat 206) (String (ascii_of_nat 169) EmptyString).

(** A message object with empty strings, [false] and [0]. *)
Definition Alarm_zero : ros_alarms.Alarm :=
  ros_alarms.mkAlarm "" (Holds false) "" "" "" (Holds 0).

Definition fixed_node_name (name : string) : unit -> string :=
  fun _ => name.

(** * Properties *)

(** ** What each body computes *)

(** The six-parameter constructor hands back the members as they were on
    entry, whatever it is given: its six statements write parameters. *)
Lemma AlarmProxy_full_is_default
    (s : storage)
    (an : string) (r : bool) (nn pd jp : string) (sv : uint8_t) :
  AlarmProxy_full s an r nn pd jp sv = members_default_init s.
Proof. reflexivity. Qed.

Lemma copy_assign_rhs (lhs rhs : AlarmProxy) : copy_assign lhs rhs = rhs.
Proof. destruct lhs, rhs; reflexivity. Qed.

Lemma AlarmProxy_from_msg_fields (s : storage) (msg : ros_alarms.Alarm) :
  AlarmProxy_from_msg s msg =
  mkAlarmProxy (ros_alarms.alarm_name msg) (ros_alarms.raised msg)
               (ros_alarms.node_name msg)
               (ros_alarms.problem_description msg)
               (ros_alarms.parameters msg) (ros_alarms.severity msg).
Proof. reflexivity. Qed.

Lemma as_msg_fields (a0 : ros_alarms.Alarm) (this : AlarmProxy) :
  as_msg a0 this =
  (ros_alarms.mkAlarm (alarm_name this) (raised this) (node_name this)
                      (problem_description this) (json_parameters this)
                      (severity this),
   this).
Proof. reflexivity. Qed.

Lemma to_wire_fields (a0 : ros_alarms.Alarm) (e : AlarmProxy) :
  to_wire a0 e =
  ros_alarms.mkAlarm (alarm_name e) (raised e) (node_name e)
                     (problem_description e) (json_parameters e)
                     (severity e).
Proof. reflexivity. Qed.

(** The five-parameter constructor completes exactly when the storage of
    its temporary holds a written [raised], and then with the members the
    temporary had on entry. *)
Lemma AlarmProxy_implicit_outcome
    (g : unit -> string) (this0 tmp0 : storage)
    (an : string) (r : bool) (pd jp : string) (sv : uint8_t) :
  AlarmProxy_implicit g this0 tmp0 an r pd jp sv =
  if is_determinate (stored_raised tmp0)
  then Completes (members_default_init tmp0)
  else UndefinedBehaviour.
Proof.
  unfold AlarmProxy_implicit, assign.
  rewrite AlarmProxy_full_is_default, copy_assign_rhs. reflexivity.
Qed.

(** Unfolds the two conversions down to the records they build. *)
Ltac alarm_simpl :=
  unfold to_wire, from_wire;
  rewrite ?AlarmProxy_full_is_default, ?copy_assign_rhs,
          ?as_msg_fields, ?AlarmProxy_from_msg_fields;
  simpl.

Section Conversion.

Variable Alarm_default : ros_alarms.Alarm.

(** C3. Round-trip law: converting any [AlarmProxy] to a message with
    [as_msg] and back with the from-message constructor gives the same six
    fields, and converting any message to an [AlarmProxy] and back with
    [as_msg] gives the same six message fields; both whatever the storage
    of the constructed object held. *)
Theorem round_trip_law :
  (forall (s : storage) (e : AlarmProxy),
      from_wire s (to_wire Alarm_default e) = e) /\
  (forall (s : storage) (m : ros_alarms.Alarm),
      to_wire Alarm_default (from_wire s m) = m).
Proof.
  split.
  - intros s [an r nn pd jp sv]. alarm_simpl. reflexivity.
  - intros s [an r nn pd ps sv]. alarm_simpl. reflexivity.
Qed.

(** C4. Field mapping of [as_msg]: the message's [node_name] is the
    receiver's [node_name] (the reporter), its [problem_description] is the
    receiver's [problem_description] (the description), its [parameters]
    is the receiver's [json_parameters], and [alarm_name], [raised] and
    [severity] are the receiver's, unchanged. *)
Theorem to_wire_field_mapping (e : AlarmProxy) :
  ros_alarms.node_name (to_wire Alarm_default e) = node_name e /\
  ros_alarms.problem_description (to_wire Alarm_default e)
  = problem_description e /\
  ros_alarms.alarm_name (to_wire Alarm_default e) = alarm_name e /\
  ros_alarms.raised (to_wire Alarm_default e) = raised e /\
  ros_alarms.parameters (to_wire Alarm_default e) = json_parameters e /\
  ros_alarms.severity (to_wire Alarm_default e) = severity e.
Proof. alarm_simpl. repeat split. Qed.

(** C8. [as_msg] is pure with respect to its receiver: after the call the
    receiver is the object it was before, so each of its six fields reads
    the same. *)
Theorem as_msg_receiver_unchanged (e : AlarmProxy) :
  snd (as_msg Alarm_default e) = e /\
  forall f : field,
    read_field f (snd (as_msg Alarm_default e)) = read_field f e.
Proof.
  rewrite as_msg_fields. simpl. split; [ reflexivity | intros f; reflexivity ].
Qed.

Lemma apply_operation_id (p : AlarmProxy) (o : operation) :
  apply_operation Alarm_default p o = p.
Proof. destruct o; reflexivity. Qed.

Lemma run_operations_id (ops : list operation) (p : AlarmProxy) :
  run_operations Alarm_default ops p = p.
Proof.
  unfold run_operations. revert p.
  induction ops as [| o ops IH]; intros p; simpl.
  - reflexivity.
  - rewrite apply_operation_id. apply IH.
Qed.

(** C9, as amended. No member operation changes a field of its receiver:
    for every instance, every field and every sequence of accesses made
    of [as_msg] calls and member reads only, the field reads the same
    after the sequence as before it.  (An assignment to the instance or to
    one of its data members is an access of another kind, and does change
    it.) *)
Theorem member_operations_leave_fields_unchanged
    (accs : list access) (e : AlarmProxy) (f : field) :
  forallb is_member_operation accs = true ->
  read_field f (run_accesses Alarm_default accs e) = read_field f e.
Proof.
  unfold run_accesses. revert e.
  induction accs as [| a accs IH]; intros e Hall; simpl.
  - reflexivity.
  - simpl in Hall. apply andb_true_iff in Hall as [Ha Hrest].
    destruct a; try discriminate Ha. simpl.
    rewrite apply_operation_id. apply IH. exact Hrest.
Qed.

End Conversion.

(** C5. Field mapping of the from-message constructor: the message's
    [node_name] becomes the object's [node_name] (the reporter), its
    [problem_description] the object's [problem_description] (the
    description), its [parameters] the object's [json_parameters], and
    [alarm_name], [raised] and [severity] are copied unchanged; whatever
    the storage of the object held. *)
Theorem from_wire_field_mapping (s : storage) (m : ros_alarms.Alarm) :
  node_name (from_wire s m) = ros_alarms.node_name m /\
  problem_description (from_wire s m) = ros_alarms.problem_description m /\
  json_parameters (from_wire s m) = ros_alarms.parameters m /\
  alarm_name (from_wire s m) = ros_alarms.alarm_name m /\
  raised (from_wire s m) = ros_alarms.raised m /\
  severity (from_wire s m) = ros_alarms.severity m.
Proof. alarm_simpl. repeat split. Qed.

(** C10. For every argument tuple, and whatever the storage of the
    object held, the object built by the six-parameter constructor has
    empty [alarm_name], [node_name], [problem_description] and
    [json_parameters]: the body's statements assign each parameter to
    itself, so the body leaves every frame, and with it the object under
    construction, as it found it. *)
Theorem full_form_strings_empty
    (s : storage)
    (an : string) (r : bool) (nn pd jp : string) (sv : uint8_t) :
  let e := AlarmProxy_full s an r nn pd jp sv in
  (alarm_name e = "" /\ node_name e = "" /\
   problem_description e = "" /\ json_parameters e = "") /\
  (forall fr : full_frame, exec AlarmProxy_full_body fr = fr).
Proof. simpl. repeat split. intros [this a b c d g h]. reflexivity. Qed.

(** ** The battery-low scenario *)

(** C1. The six-parameter constructor called on
    [("battery-low", true, "node-42", "cell voltage under threshold",
    {"cell":3,"volts":2.9}, 200)] returns the members as they were on
    entry: the four strings are empty, not the arguments, and [raised]
    and [severity] are what the storage held, not written. *)
Theorem full_form_battery_low (s : storage) :
  let e := AlarmProxy_full s "battery-low" true "node-42"
                           "cell voltage under threshold"
                           battery_parameters 200 in
  e = members_default_init s /\
  alarm_name e <> "battery-low" /\
  node_name e <> "node-42" /\
  problem_description e <> "cell voltage under threshold" /\
  json_parameters e <> battery_parameters /\
  raised e = stored_raised s /\
  severity e = stored_severity s.
Proof. simpl. repeat split; discriminate. Qed.

(** C2. The battery-low object, converted with [as_msg] and back with the
    from-message constructor, has empty strings, and the [raised] and
    [severity] that the storage of the first object held: none of the
    four string arguments is reproduced and neither scalar argument was
    ever stored. *)
Theorem battery_low_round_trip
    (a0 : ros_alarms.Alarm) (s s' : storage) :
  let e := AlarmProxy_full s "battery-low" true "node-42"
                           "cell voltage under threshold"
                           battery_parameters 200 in
  let e' := from_wire s' (to_wire a0 e) in
  e' = members_default_init s /\
  alarm_name e' <> "battery-low" /\
  node_name e' <> "node-42" /\
  problem_description e' <> "cell voltage under threshold" /\
  json_parameters e' <> battery_parameters /\
  raised e' = stored_raised s /\
  severity e' = stored_severity s.
Proof. simpl. repeat split; discriminate. Qed.

(** C6. The five-parameter constructor called in a node named [node-42]
    on [("battery-low", true, "cell voltage under threshold",
    {"cell":3,"volts":2.9}, 200)], next to the six-parameter constructor
    called with [node-42] added.  With [false] and [170] in the storage of
    the temporary and [false] and [85] in the storage of the second
    object, the first has [severity] 170 and the second 85: the two are
    not equal; neither has [node-42] as [node_name].  With a temporary in
    storage that nothing has written, the call reads a [bool] that was
    never written. *)
Theorem implicit_form_battery_low (this0 : storage) :
  let g := fixed_node_name "node-42" in
  let implicit := fun tmp0 =>
    AlarmProxy_implicit g this0 tmp0 "battery-low" true
                        "cell voltage under threshold"
                        battery_parameters 200 in
  let full :=
    AlarmProxy_full (mkStorage (Holds false) (Holds 85))
                    "battery-low" true "node-42"
                    "cell voltage under threshold"
                    battery_parameters 200 in
  implicit (mkStorage (Holds false) (Holds 170))
  = Completes (mkAlarmProxy "" (Holds false) "" "" "" (Holds 170)) /\
  full = mkAlarmProxy "" (Holds false) "" "" "" (Holds 85) /\
  implicit (mkStorage (Holds false) (Holds 170)) <> Completes full /\
  node_name full <> "node-42" /\
  implicit fresh_storage = UndefinedBehaviour.
Proof. simpl. repeat split; discriminate. Qed.

(** C7. The five-parameter constructor, for every provider and every
    argument tuple, has no defined result when the [raised] of its
    temporary was never written, as in a temporary's fresh storage: it
    copy-assigns the temporary, which the six-parameter constructor left
    unwritten. *)
Theorem implicit_form_undefined
    (g : unit -> string) (this0 : storage) (sev0 : scalar uint8_t)
    (an : string) (r : bool) (pd jp : string) (sv : uint8_t) :
  AlarmProxy_implicit g this0 (mkStorage Indeterminate sev0) an r pd jp sv
  = UndefinedBehaviour.
Proof. rewrite AlarmProxy_implicit_outcome. reflexivity. Qed.

(** C9, as stated, fails: an assignment to an instance, and an assignment
    to one of its public data members, each change what a field reads. *)
Lemma assignment_changes_fields :
  let e := mkAlarmProxy "battery-low" (Holds true) "node-42" ""
                        battery_parameters (Holds 200) in
  let rhs := mkAlarmProxy "door-open" (Holds false) "node-7" "" ""
                          (Holds 1) in
  read_field F_alarm_name
             (run_accesses Alarm_zero [Acc_operation Op_as_msg;
                                       Acc_assign rhs] e)
  <> read_field F_alarm_name e /\
  read_field F_severity (run_accesses Alarm_zero [Acc_store_severity 0] e)
  <> read_field F_severity e.
Proof. simpl. split; discriminate. Qed.

(** A sequence of two [as_msg] calls and a read. *)
Lemma member_operations_leave_fields_unchanged_witness :
  let e := mkAlarmProxy "battery-low" (Holds true) "node-42" ""
                        battery_parameters (Holds 200) in
  let accs := [Acc_operation Op_as_msg; Acc_operation (Op_read F_severity);
               Acc_operation Op_as_msg] in
  forallb is_member_operation accs = true /\
  read_field F_severity (run_accesses Alarm_zero accs e)
  = read_field F_severity e.
Proof.
  intros e accs. split.
  - reflexivity.
  - apply (member_operations_leave_fields_unchanged
             Alarm_zero accs e F_severity).
    reflexivity.
Defined.

(** * Further properties of the constructors and of [as_msg] *)



(** X3. [as_msg] writes every field of its local message: the returned
    message and receiver are the same for any two states the freshly
    declared message [a] may start in. *)
Theorem as_msg_overwrites_message
    (a0 a1 : ros_alarms.Alarm) (e : AlarmProxy) :
  as_msg a0 e = as_msg a1 e.
Proof. rewrite !as_msg_fields. reflexivity. Qed.

(** X4. [as_msg] is injective: two objects that give the same message have
    the same six members. *)
Theorem to_wire_injective
    (a0 a1 : ros_alarms.Alarm) (e1 e2 : AlarmProxy) :
  to_wire a0 e1 = to_wire a1 e2 -> e1 = e2.
Proof.
  rewrite !to_wire_fields. intros H.
  destruct e1, e2; simpl in H. injection H as -> -> -> -> -> ->.
  reflexivity.
Qed.

(** X5. The from-message constructor is injective: two messages that give
    the same object, in whatever storage each is built, have the same six
    fields. *)
Theorem from_wire_injective (s1 s2 : storage) (m1 m2 : ros_alarms.Alarm) :
  from_wire s1 m1 = from_wire s2 m2 -> m1 = m2.
Proof.
  unfold from_wire. rewrite !AlarmProxy_from_msg_fields. intros H.
  destruct m1, m2; simpl in H. injection H as -> -> -> -> -> ->.
  reflexivity.
Qed.

(** X7. [as_msg] is repeatable: after any sequence of [as_msg] calls and
    field reads on an object, [as_msg] returns the message it would have
    returned before the sequence. *)
Theorem as_msg_repeatable
    (a0 : ros_alarms.Alarm) (ops : list operation) (e : AlarmProxy) :
  to_wire a0 (run_operations a0 ops e) = to_wire a0 e.
Proof. rewrite run_operations_id. reflexivity. Qed.

(** X8. The body of the from-message constructor writes every member:
    run from any two states of the object under construction it ends in
    the same object, so nothing of the state on entry survives. *)
Theorem from_msg_overwrites_members
    (msg : ros_alarms.Alarm) (p p' : AlarmProxy) :
  exec (AlarmProxy_from_msg_body msg) p
  = exec (AlarmProxy_from_msg_body msg) p'.
Proof. reflexivity. Qed.

(** X9. For every argument tuple and whatever the storage of the object
    held, a string argument of the six-parameter constructor is found in
    its member exactly when it is the empty string. *)
Theorem full_form_stores_only_empty_strings
    (s : storage)
    (an : string) (r : bool) (nn pd jp : string) (sv : uint8_t) :
  let e := AlarmProxy_full s an r nn pd jp sv in
  (alarm_name e = an <-> an = "") /\
  (node_name e = nn <-> nn = "") /\
  (problem_description e = pd <-> pd = "") /\
  (json_parameters e = jp <-> jp = "").
Proof. simpl. repeat split; intros H; symmetry; exact H. Qed.

(** ** Instances *)


(** Two objects with the same message, for two different states of the
    freshly declared message. *)
Lemma to_wire_injective_witness :
  let e1 := from_wire fresh_storage
              (ros_alarms.mkAlarm "battery-low" (Holds true)
                 "node-42" "" battery_parameters (Holds 200)) in
  let e2 := mkAlarmProxy "battery-low" (Holds true) "node-42" ""
                         battery_parameters (Holds 200) in
  to_wire Alarm_zero e1
  = to_wire (ros_alarms.mkAlarm "x" Indeterminate "" "" "" (Holds 7)) e2 /\
  e1 = e2.
Proof.
  intros e1 e2. split.
  - reflexivity.
  - apply (to_wire_injective Alarm_zero
             (ros_alarms.mkAlarm "x" Indeterminate "" "" "" (Holds 7))
             e1 e2).
    reflexivity.
Defined.

(** Two messages with the same object. *)
Lemma from_wire_injective_witness :
  let m1 := to_wire Alarm_zero
              (mkAlarmProxy non_ascii_name (Holds false) "" "" ""
                            (Holds 255)) in
  let m2 := ros_alarms.mkAlarm non_ascii_name (Holds false) "" "" ""
                               (Holds 255) in
  from_wire fresh_storage m1 = from_wire zeroed_storage m2 /\ m1 = m2.
Proof.
  intros m1 m2. split.
  - reflexivity.
  - apply (from_wire_injective fresh_storage zeroed_storage m1 m2).
    reflexivity.
Defined.
